(** * Gateway API conformance suite: test gating and suite construction

    A shallow embedding of [conformance/utils/suite/suite.go]: the suite
    constructor [New], [Setup], and the per-test [Run] with its three gate
    checks.  The Go test handle [*testing.T] and the collaborators of the
    [kubernetes] package are modelled by a small state-and-exit monad that
    also returns the list of calls a procedure made, in order. *)

From Stdlib Require Import ZArith.
From stdpp Require Import base option list strings gmap.

Local Open Scope Z_scope.

(** ** Feature labels and channels *)

(** [type ExemptFeature string] *)
Definition ExemptFeature := string.
Definition ExemptReferencePolicy : ExemptFeature := "ReferencePolicy".

(** [type SupportedFeature string] *)
Definition SupportedFeature := string.
Definition SupportReferencePolicy : SupportedFeature := "ReferencePolicy".

(** [type GatewayChannel int].  Channels are only compared and copied, never
    computed with, so the machine integer is a [Z] and no wrap-around
    arises. *)
Definition GatewayChannel := Z.
Definition ExperimentalChannel : GatewayChannel := 1.
Definition StandardChannel : GatewayChannel := 2.

(** ** The collaborating packages *)

(** [kubernetes.Applier], with the two fields the constructor fills in.
    [v1alpha2.PortNumber] is an [int32]. *)
Record Applier := {
  NamespaceLabels : gmap string string;
  ValidUniqueListenerPorts : list Z
}.

(** How a call that takes the test handle ends: it returns, or it leaves the
    test's goroutine through [t.SkipNow] or [t.FailNow]. *)
Inductive Exit := SkipNow | FailNow.

Inductive Result (A : Type) :=
| Return (a : A)
| Goexit (e : Exit).
Arguments Return {A} a.
Arguments Goexit {A} e.

(** Modelled from the spec: the [kubernetes] and [roundtripper] packages are
    not part of the file; what the suite uses of them is an interface.  The
    cluster client is an opaque handle, the cluster behind it is a state
    [Cluster], and each [Must...] helper either returns ([Some]) or fails
    the run through the test handle ([None]):
    - the acceptance checker blocks until the class is accepted within the
      bound and returns the controller's name;
    - the applier applies the manifest at a location and reports failures
      as run failures;
    - the readiness checker blocks until the namespaces are ready within
      the bound. *)
Class Collaborators := {
  Client : Type;
  Cluster : Type;
  CustomRoundTripper : Type;
  GWCMustBeAccepted :
    Client → string → Z → Cluster → option string * Cluster;
  MustApplyWithCleanup :
    Applier → Client → string → string → bool → Cluster → option unit * Cluster;
  NamespacesMustBeReady :
    Client → list string → Z → Cluster → option unit * Cluster
}.

Section Suite.
Context `{K : Collaborators}.

(** [roundtripper.RoundTripper] is an interface: either the package's
    [DefaultRoundTripper] or an implementation supplied by the caller.  A
    field of the interface type is an [option]: [None] is Go's [nil]. *)
Inductive RoundTripper :=
| DefaultRoundTripper (Debug : bool)
| OtherRoundTripper (impl : CustomRoundTripper).

(** ** The suite and its options *)

Record ConformanceTestSuite := {
  suite_Client : Client;
  suite_RoundTripper : option RoundTripper;
  suite_GatewayClassName : string;
  suite_ControllerName : string;
  suite_Debug : bool;
  suite_Cleanup : bool;
  suite_BaseManifests : string;
  suite_Applier : Applier;
  suite_ExemptFeatures : list ExemptFeature;
  suite_SupportedFeatures : list SupportedFeature;
  suite_MinChannel : GatewayChannel
}.

Record Options := {
  opt_Client : Client;
  opt_GatewayClassName : string;
  opt_Debug : bool;
  opt_RoundTripper : option RoundTripper;
  opt_BaseManifests : string;
  opt_NamespaceLabels : gmap string string;
  opt_ValidUniqueListenerPorts : list Z;
  opt_CleanupBaseResources : bool;
  opt_ExemptFeatures : list ExemptFeature;
  opt_SupportedFeatures : list SupportedFeature;
  opt_MinChannel : GatewayChannel
}.

(** [suite.BaseManifests = v] *)
Definition set_BaseManifests (v : string) (s : ConformanceTestSuite)
  : ConformanceTestSuite :=
  {| suite_Client := suite_Client s;
     suite_RoundTripper := suite_RoundTripper s;
     suite_GatewayClassName := suite_GatewayClassName s;
     suite_ControllerName := suite_ControllerName s;
     suite_Debug := suite_Debug s;
     suite_Cleanup := suite_Cleanup s;
     suite_BaseManifests := v;
     suite_Applier := suite_Applier s;
     suite_ExemptFeatures := suite_ExemptFeatures s;
     suite_SupportedFeatures := suite_SupportedFeatures s;
     suite_MinChannel := suite_MinChannel s |}.

(** [suite.ControllerName = v] *)
Definition set_ControllerName (v : string) (s : ConformanceTestSuite)
  : ConformanceTestSuite :=
  {| suite_Client := suite_Client s;
     suite_RoundTripper := suite_RoundTripper s;
     suite_GatewayClassName := suite_GatewayClassName s;
     suite_ControllerName := v;
     suite_Debug := suite_Debug s;
     suite_Cleanup := suite_Cleanup s;
     suite_BaseManifests := suite_BaseManifests s;
     suite_Applier := suite_Applier s;
     suite_ExemptFeatures := suite_ExemptFeatures s;
     suite_SupportedFeatures := suite_SupportedFeatures s;
     suite_MinChannel := suite_MinChannel s |}.

(** [func New(s Options) *ConformanceTestSuite].  The local [MinChannel] is
    computed as in the source and, as in the source, the struct literal
    reads [s.MinChannel]; the field the literal leaves out
    ([ControllerName]) has its zero value. *)
Definition New (s : Options) : ConformanceTestSuite :=
  let roundTripper :=
    match opt_RoundTripper s with
    | None => Some (DefaultRoundTripper (opt_Debug s))
    | Some rt => Some rt
    end in
  let MinChannel := opt_MinChannel s in
  let MinChannel :=
    if Z.eqb MinChannel 0 then StandardChannel else MinChannel in
  let suite :=
    {| suite_Client := opt_Client s;
       suite_RoundTripper := roundTripper;
       suite_GatewayClassName := opt_GatewayClassName s;
       suite_ControllerName := "";
       suite_Debug := opt_Debug s;
       suite_Cleanup := opt_CleanupBaseResources s;
       suite_BaseManifests := opt_BaseManifests s;
       suite_Applier :=
         {| NamespaceLabels := opt_NamespaceLabels s;
            ValidUniqueListenerPorts := opt_ValidUniqueListenerPorts s |};
       suite_ExemptFeatures := opt_ExemptFeatures s;
       suite_SupportedFeatures := opt_SupportedFeatures s;
       suite_MinChannel := opt_MinChannel s |} in
  if String.eqb (suite_BaseManifests suite) ""
  then set_BaseManifests "base/manifests.yaml" suite
  else suite.

(** ** Procedures that take the test handle *)

(** An operand of a formatted or printed message. *)
Inductive Arg :=
| AStr (s : string)
| AChannel (c : GatewayChannel).

(** The calls a procedure of the suite makes on the test handle, on the
    collaborators and on a test's body, with their arguments. *)
Inductive Call :=
| T_Logf (format : string) (args : list Arg)
| T_Skip (args : list Arg)
| T_Skipf (format : string) (args : list Arg)
| T_Parallel
| Call_GWCMustBeAccepted (c : Client) (gwcName : string) (seconds : Z)
| Call_MustApplyWithCleanup
    (a : Applier) (c : Client) (location gcName : string) (cleanup : bool)
| Call_NamespacesMustBeReady (c : Client) (namespaces : list string) (seconds : Z)
| Call_Test (shortName : string).

(** What a procedure runs on: the suite behind the [*ConformanceTestSuite]
    pointer every procedure shares, and the cluster. *)
Record Store := {
  the_suite : ConformanceTestSuite;
  the_cluster : Cluster
}.

(** A procedure returns or exits, leaves a store, and has made calls. *)
Definition Proc (A : Type) : Type := Store → Result A * Store * list Call.

Definition result {A} (o : Result A * Store * list Call) : Result A := o.1.1.
Definition final {A} (o : Result A * Store * list Call) : Store := o.1.2.
Definition calls {A} (o : Result A * Store * list Call) : list Call := o.2.

Definition ret {A} (a : A) : Proc A := λ w, (Return a, w, []).

Definition bind {A B} (m : Proc A) (f : A → Proc B) : Proc B :=
  λ w,
    match m w with
    | (Return a, w1, cs1) =>
        match f a w1 with
        | (r, w2, cs2) => (r, w2, cs1 ++ cs2)
        end
    | (Goexit e, w1, cs1) => (Goexit e, w1, cs1)
    end.

#[local] Notation "x <- m ;; k" := (bind m (λ x, k))
  (at level 100, m at next level, right associativity).
#[local] Notation "m ;;; k" := (bind m (λ _, k))
  (at level 100, right associativity).

(** A call that returns. *)
Definition call (c : Call) : Proc unit := λ w, (Return (), w, [c]).

(** A call that does not return: the goroutine exits. *)
Definition exit {A} (c : Call) (e : Exit) : Proc A := λ w, (Goexit e, w, [c]).

Definition get_suite : Proc ConformanceTestSuite :=
  λ w, (Return (the_suite w), w, []).

Definition put_suite (s : ConformanceTestSuite) : Proc unit :=
  λ w, (Return (), {| the_suite := s; the_cluster := the_cluster w |}, []).

(** A call on a collaborator: it acts on the cluster and either returns its
    value or has failed the run. *)
Definition collaborator {A} (c : Call) (f : Cluster → option A * Cluster)
  : Proc A :=
  λ w,
    let '(r, cl) := f (the_cluster w) in
    let w' := {| the_suite := the_suite w; the_cluster := cl |} in
    match r with
    | Some a => (Return a, w', [c])
    | None => (Goexit FailNow, w', [c])
    end.

(** [for _, x := range l { body x }] *)
Fixpoint for_range {A} (l : list A) (body : A → Proc unit) : Proc unit :=
  match l with
  | [] => ret ()
  | x :: l' => body x ;;; for_range l' body
  end.

(** [t.Logf], [t.Skip], [t.Skipf], [t.Parallel] *)
Definition t_Logf (format : string) (args : list Arg) : Proc unit :=
  call (T_Logf format args).
Definition t_Skip (args : list Arg) : Proc unit :=
  exit (T_Skip args) SkipNow.
Definition t_Skipf (format : string) (args : list Arg) : Proc unit :=
  exit (T_Skipf format args) SkipNow.
Definition t_Parallel : Proc unit := call T_Parallel.

(** ** Setup *)

(** [func (suite *ConformanceTestSuite) Setup(t *testing.T)] *)
Definition Setup : Proc unit :=
  t_Logf "Test Setup: Ensuring GatewayClass has been accepted" [] ;;;
  suite <- get_suite ;;
  name <- collaborator
    (Call_GWCMustBeAccepted (suite_Client suite) (suite_GatewayClassName suite) 180)
    (GWCMustBeAccepted (suite_Client suite) (suite_GatewayClassName suite) 180) ;;
  put_suite (set_ControllerName name suite) ;;;

  t_Logf "Test Setup: Applying base manifests" [] ;;;
  suite <- get_suite ;;
  collaborator
    (Call_MustApplyWithCleanup (suite_Applier suite) (suite_Client suite)
       (suite_BaseManifests suite) (suite_GatewayClassName suite)
       (suite_Cleanup suite))
    (MustApplyWithCleanup (suite_Applier suite) (suite_Client suite)
       (suite_BaseManifests suite) (suite_GatewayClassName suite)
       (suite_Cleanup suite)) ;;;

  t_Logf "Test Setup: Ensuring Gateways and Pods from base manifests are ready" [] ;;;
  let namespaces :=
    [ "gateway-conformance-infra";
      "gateway-conformance-app-backend";
      "gateway-conformance-web-backend" ] in
  suite <- get_suite ;;
  collaborator
    (Call_NamespacesMustBeReady (suite_Client suite) namespaces 300)
    (NamespacesMustBeReady (suite_Client suite) namespaces 300).

(** ** Tests *)

(** [type ConformanceTest struct].  The body [Test] receives the test handle
    and the suite pointer: it acts on the store and returns or exits. *)
Record ConformanceTest := {
  ShortName : string;
  Description : string;
  Exemptions : list ExemptFeature;
  Features : list SupportedFeature;
  Manifests : list string;
  Slow : bool;
  Parallel : bool;
  Test : Store → Result unit * Store;
  MinChannel : GatewayChannel
}.

(** [slices.Index] and [slices.Contains] of [golang.org/x/exp/slices], on
    strings. *)
Fixpoint slices_Index_from (i : Z) (s : list string) (v : string) : Z :=
  match s with
  | [] => -1
  | x :: s' => if String.eqb v x then i else slices_Index_from (i + 1) s' v
  end.

Definition slices_Index (s : list string) (v : string) : Z :=
  slices_Index_from 0 s v.

Definition slices_Contains (s : list string) (v : string) : bool :=
  Z.leb 0 (slices_Index s v).

(** The first loop of [Run]: every feature the test exercises has to be
    supported by the suite. *)
Definition check_Features (test : ConformanceTest) : Proc unit :=
  for_range (Features test) (λ feature,
    suite <- get_suite ;;
    if negb (slices_Contains (suite_SupportedFeatures suite) feature)
    then t_Skip [ AStr "Skipping %s: suite does not support %s";
                  AStr (ShortName test); AStr feature ]
    else ret ()).

(** The second loop of [Run]: every exemption of the test has to be among
    the suite's exempt features. *)
Definition check_Exemptions (test : ConformanceTest) : Proc unit :=
  for_range (Exemptions test) (λ feature,
    suite <- get_suite ;;
    if negb (slices_Contains (suite_ExemptFeatures suite) feature)
    then t_Skip [ AStr "Skipping %s: suite exempts %s";
                  AStr (ShortName test); AStr feature ]
    else ret ()).

(** The channel comparison of [Run]. *)
Definition check_MinChannel (test : ConformanceTest) : Proc unit :=
  suite <- get_suite ;;
  if Z.ltb (MinChannel test) (suite_MinChannel suite)
  then t_Skipf "Skipping %s: only testing %s channel"
         [ AStr (ShortName test); AChannel (suite_MinChannel suite) ]
  else ret ().

(** The body of the last loop of [Run]: one manifest is applied, with
    cleanup. *)
Definition apply_Manifest (manifestLocation : string) : Proc unit :=
  t_Logf "Applying %s" [ AStr manifestLocation ] ;;;
  suite <- get_suite ;;
  collaborator
    (Call_MustApplyWithCleanup (suite_Applier suite) (suite_Client suite)
       manifestLocation (suite_GatewayClassName suite) true)
    (MustApplyWithCleanup (suite_Applier suite) (suite_Client suite)
       manifestLocation (suite_GatewayClassName suite) true).

(** The last loop of [Run]. *)
Definition apply_Manifests (test : ConformanceTest) : Proc unit :=
  for_range (Manifests test) apply_Manifest.

(** [test.Test(t, suite)] *)
Definition call_Test (test : ConformanceTest) : Proc unit :=
  λ w, let '(r, w') := Test test w in (r, w', [Call_Test (ShortName test)]).

(** [func (test *ConformanceTest) Run(t *testing.T, suite *ConformanceTestSuite)] *)
Definition Run (test : ConformanceTest) : Proc unit :=
  (if Parallel test then t_Parallel else ret ()) ;;;
  check_Features test ;;;
  check_Exemptions test ;;;
  check_MinChannel test ;;;
  apply_Manifests test ;;;
  call_Test test.

End Suite.

(** * Observations *)

Section Observations.
Context `{K : Collaborators}.

(** ** What is observed of a run *)

Definition is_skip (c : Call) : bool :=
  match c with T_Skip _ | T_Skipf _ _ => true | _ => false end.

Definition is_apply (c : Call) : bool :=
  match c with Call_MustApplyWithCleanup _ _ _ _ _ => true | _ => false end.

Definition is_test (c : Call) : bool :=
  match c with Call_Test _ => true | _ => false end.

(** The test was skipped: [t.Skip] or [t.Skipf] was called. *)
Definition skipped (cs : list Call) : bool := existsb is_skip cs.

(** The test's body was executed. *)
Definition body_executed (cs : list Call) : bool := existsb is_test cs.

(** The manifest applications among the calls. *)
Definition applications (cs : list Call) : list Call := filter is_apply cs.

(** The three gate conditions, in the words of the specification. *)
Definition features_supported (test : ConformanceTest) (suite : ConformanceTestSuite) : Prop :=
  Features test ⊆ suite_SupportedFeatures suite.

Definition exemptions_granted (test : ConformanceTest) (suite : ConformanceTestSuite) : Prop :=
  Exemptions test ⊆ suite_ExemptFeatures suite.

Definition channel_admitted (test : ConformanceTest) (suite : ConformanceTestSuite) : Prop :=
  suite_MinChannel suite ≤ MinChannel test.

Definition gates_hold (test : ConformanceTest) (suite : ConformanceTestSuite) : Prop :=
  features_supported test suite ∧ exemptions_granted test suite ∧
  channel_admitted test suite.

(** The first element of [want] that [have] lacks: the feature a gate loop
    stops at. *)
Definition first_missing (have want : list string) : option string :=
  List.find (λ f, negb (slices_Contains have f)) want.

(** The calls of a [Setup] that runs to its end, in order. *)
Definition Setup_calls (suite : ConformanceTestSuite) : list Call :=
  [ T_Logf "Test Setup: Ensuring GatewayClass has been accepted" [];
    Call_GWCMustBeAccepted (suite_Client suite) (suite_GatewayClassName suite) 180;
    T_Logf "Test Setup: Applying base manifests" [];
    Call_MustApplyWithCleanup (suite_Applier suite) (suite_Client suite)
      (suite_BaseManifests suite) (suite_GatewayClassName suite)
      (suite_Cleanup suite);
    T_Logf "Test Setup: Ensuring Gateways and Pods from base manifests are ready" [];
    Call_NamespacesMustBeReady (suite_Client suite)
      [ "gateway-conformance-infra";
        "gateway-conformance-app-backend";
        "gateway-conformance-web-backend" ] 300 ].

(** [t.Parallel], when called, is the first call of [Run]. *)
Definition Parallel_calls (test : ConformanceTest) : list Call :=
  if Parallel test then [T_Parallel] else [].

(** The skip each gate check makes. *)
Definition Skip_unsupported (test : ConformanceTest) (f : string) : Call :=
  T_Skip [ AStr "Skipping %s: suite does not support %s";
           AStr (ShortName test); AStr f ].

Definition Skip_not_exempt (test : ConformanceTest) (f : string) : Call :=
  T_Skip [ AStr "Skipping %s: suite exempts %s";
           AStr (ShortName test); AStr f ].

Definition Skip_channel (test : ConformanceTest) (suite : ConformanceTestSuite) : Call :=
  T_Skipf "Skipping %s: only testing %s channel"
    [ AStr (ShortName test); AChannel (suite_MinChannel suite) ].

(** Whether the acceptance checker, called by [Setup] on this store,
    reports the class accepted within its bound of 180. *)
Definition accepted_in_time (w : Store) : option string :=
  (GWCMustBeAccepted (suite_Client (the_suite w))
     (suite_GatewayClassName (the_suite w)) 180 (the_cluster w)).1.

End Observations.

(** * A sample cluster

    A small instance of the collaborators, to run the procedures on: the
    cluster is the list of the manifest locations applied so far, the class
    ["accepted-class"] is accepted and no other, and the manifest at
    ["broken.yaml"] cannot be applied. *)

Definition sample : Collaborators := {|
  Client := unit;
  Cluster := list string;
  CustomRoundTripper := unit;
  GWCMustBeAccepted := λ _ gwcName _ cl,
    if String.eqb gwcName "accepted-class"
    then (Some "example.net/gateway-controller", cl) else (None, cl);
  MustApplyWithCleanup := λ _ _ location _ _ cl,
    if String.eqb location "broken.yaml"
    then (None, cl) else (Some (), cl ++ [location]);
  NamespacesMustBeReady := λ _ _ _ cl, (Some (), cl)
|}.

Section Sample.
#[local] Existing Instance sample.

(** The options with every field at its zero value. *)
Definition zero_Options : Options := {|
  opt_Client := ();
  opt_GatewayClassName := "";
  opt_Debug := false;
  opt_RoundTripper := None;
  opt_BaseManifests := "";
  opt_NamespaceLabels := ∅;
  opt_ValidUniqueListenerPorts := [];
  opt_CleanupBaseResources := false;
  opt_ExemptFeatures := [];
  opt_SupportedFeatures := [];
  opt_MinChannel := 0
|}.

(** Options for a suite on the given class and channel that supports no
    feature and lists no exemption. *)
Definition sample_Options (gcName : string) (channel : GatewayChannel)
  : Options := {|
  opt_Client := ();
  opt_GatewayClassName := gcName;
  opt_Debug := true;
  opt_RoundTripper := Some (OtherRoundTripper ());
  opt_BaseManifests := "conformance/base.yaml";
  opt_NamespaceLabels := ∅;
  opt_ValidUniqueListenerPorts := [];
  opt_CleanupBaseResources := true;
  opt_ExemptFeatures := [];
  opt_SupportedFeatures := [];
  opt_MinChannel := channel
|}.

(** A store with a fresh suite and an empty cluster. *)
Definition sample_Store (o : Options) : Store :=
  {| the_suite := New o; the_cluster := [] |}.

(** A test with the given requirements whose body passes. *)
Definition sample_Test (features : list SupportedFeature)
    (manifests : list string) (channel : GatewayChannel)
  : ConformanceTest := {|
  ShortName := "SampleTest";
  Description := "a sample";
  Exemptions := [];
  Features := features;
  Manifests := manifests;
  Slow := false;
  Parallel := false;
  Test := λ w, (Return (), w);
  MinChannel := channel
|}.

(** Stores: suites on the standard and on the experimental channel, a
    suite whose class the cluster never accepts, and the suite made from
    the zero options. *)
Definition standard_Store : Store :=
  sample_Store (sample_Options "accepted-class" StandardChannel).
Definition experimental_Store : Store :=
  sample_Store (sample_Options "accepted-class" ExperimentalChannel).
Definition unaccepted_Store : Store :=
  sample_Store (sample_Options "unknown-class" StandardChannel).
Definition zero_Store : Store := sample_Store zero_Options.

(** Tests: one that every sample suite on its channel admits but whose
    manifest cannot be applied, one that requires nothing, one of the
    experimental channel, and one that requires a feature and is of the
    experimental channel. *)
Definition broken_Test : ConformanceTest :=
  sample_Test [] ["broken.yaml"] StandardChannel.
Definition standard_Test : ConformanceTest :=
  sample_Test [] ["a.yaml"] StandardChannel.
Definition experimental_Test : ConformanceTest :=
  sample_Test [] ["a.yaml"] ExperimentalChannel.
Definition needy_Test : ConformanceTest :=
  sample_Test [SupportReferencePolicy] ["a.yaml"] ExperimentalChannel.

End Sample.

(** * The suite's Run over a list of tests *)

Section Subtests.
Context `{K : Collaborators}.

(** The call [Run] makes on the applier for one manifest of a test: the
    suite's applier, client and class name, with cleanup on. *)
Definition Manifest_call (suite : ConformanceTestSuite) (location : string) : Call :=
  Call_MustApplyWithCleanup (suite_Applier suite) (suite_Client suite)
    location (suite_GatewayClassName suite) true.

(** The call [Setup] makes on the applier: the base manifests, with the
    suite's cleanup flag. *)
Definition Base_call (suite : ConformanceTestSuite) : Call :=
  Call_MustApplyWithCleanup (suite_Applier suite) (suite_Client suite)
    (suite_BaseManifests suite) (suite_GatewayClassName suite)
    (suite_Cleanup suite).

(** A test body that leaves the suite behind the pointer as it found it. *)
Definition keeps_suite (test : ConformanceTest) : Prop :=
  ∀ w, the_suite (Test test w).2 = the_suite w.

(** How a subtest stands when [t.Run] returns to the loop: it has ended, by
    returning or by an exit that ends the subtest alone, or it has called
    [t.Parallel] and waits for the parent test to finish. *)
Inductive SubtestEnd :=
| Ended (r : Result unit)
| Waiting.

(** A subtest as [t.Run] leaves it: the name it was opened under, the
    calls it has made so far, and how it stands. *)
Record Subtest := {
  sub_name : string;
  sub_calls : list Call;
  sub_end : SubtestEnd
}.

(** [t.Run(test.ShortName, func(t *testing.T) { test.Run(t, suite) })].
    [t.Run] runs the function in a goroutine of its own and blocks until it
    returns, exits, or calls [t.Parallel].  The first statement of a
    parallel test's [Run] is [t.Parallel], so such a subtest is left
    waiting with that one call made; what it does once the parent test has
    finished is not part of the loop.  Any other subtest runs to its end,
    and its exit does not leave the loop. *)
Definition subtest (test : ConformanceTest) (w : Store) : Store * Subtest :=
  if Parallel test
  then (w, {| sub_name := ShortName test;
              sub_calls := [T_Parallel];
              sub_end := Waiting |})
  else
    match Run test w with
    | (r, w', cs) =>
        (w', {| sub_name := ShortName test;
                sub_calls := cs;
                sub_end := Ended r |})
    end.

(** [func (suite *ConformanceTestSuite) Run(t *testing.T, tests []ConformanceTest)] *)
Fixpoint ConformanceTestSuite_Run (tests : list ConformanceTest) (w : Store)
  : Store * list Subtest :=
  match tests with
  | [] => (w, [])
  | test :: tests' =>
      match subtest test w with
      | (w1, s) =>
          match ConformanceTestSuite_Run tests' w1 with
          | (w2, ss) => (w2, s :: ss)
          end
      end
  end.

End Subtests.

(** * More of the sample cluster *)

Section MoreSample.
#[local] Existing Instance sample.

(** A suite on the standard channel that supports the reference policy. *)
Definition supporting_Options : Options := {|
  opt_Client := ();
  opt_GatewayClassName := "accepted-class";
  opt_Debug := false;
  opt_RoundTripper := None;
  opt_BaseManifests := "";
  opt_NamespaceLabels := ∅;
  opt_ValidUniqueListenerPorts := [];
  opt_CleanupBaseResources := false;
  opt_ExemptFeatures := [];
  opt_SupportedFeatures := [SupportReferencePolicy];
  opt_MinChannel := StandardChannel
|}.

Definition supporting_Store : Store := sample_Store supporting_Options.

(** A suite whose base manifests cannot be applied. *)
Definition broken_base_Options : Options := {|
  opt_Client := ();
  opt_GatewayClassName := "accepted-class";
  opt_Debug := false;
  opt_RoundTripper := None;
  opt_BaseManifests := "broken.yaml";
  opt_NamespaceLabels := ∅;
  opt_ValidUniqueListenerPorts := [];
  opt_CleanupBaseResources := true;
  opt_ExemptFeatures := [];
  opt_SupportedFeatures := [];
  opt_MinChannel := StandardChannel
|}.

Definition broken_base_Store : Store := sample_Store broken_base_Options.

(** Tests: one with two manifests, one whose second manifest of three
    cannot be applied, one whose second required feature is the first the
    supporting suite lacks, and a parallel one. *)
Definition two_manifest_Test : ConformanceTest :=
  sample_Test [] ["a.yaml"; "b.yaml"] StandardChannel.
Definition failing_second_Test : ConformanceTest :=
  sample_Test [] ["a.yaml"; "broken.yaml"; "c.yaml"] StandardChannel.
Definition mesh_Test : ConformanceTest :=
  sample_Test [SupportReferencePolicy; "Mesh"; "UDPRoute"] ["a.yaml"] StandardChannel.
Definition parallel_Test : ConformanceTest := {|
  ShortName := "ParallelTest";
  Description := "a parallel sample";
  Exemptions := [];
  Features := [];
  Manifests := ["p.yaml"];
  Slow := false;
  Parallel := true;
  Test := λ w, (Return (), w);
  MinChannel := StandardChannel
|}.

End MoreSample.

(** * Properties *)

Section Facts.
Context `{K : Collaborators}.


(** ** slices.Contains *)

Lemma slices_Index_from_range i s v :
  slices_Index_from i s v = -1 ∨ i ≤ slices_Index_from i s v.
Proof.
  revert i. induction s as [|x s IH]; intros i; simpl; [by left|].
  destruct (String.eqb v x); [right; lia|].
  destruct (IH (i + 1)) as [->|H]; [by left | right; lia].
Qed.

Lemma slices_Index_from_found i s v :
  0 ≤ i → (0 ≤ slices_Index_from i s v ↔ v ∈ s).
Proof.
  revert i. induction s as [|x s IH]; intros i Hi; simpl.
  - split; [lia | by intros ?%elem_of_nil].
  - destruct (String.eqb_spec v x) as [->|Hne].
    + split; [intros _; left | done].
    + rewrite IH by lia. rewrite elem_of_cons.
      split; [by right | by intros [?|?]].
Qed.

Lemma slices_Contains_true s v : slices_Contains s v = true ↔ v ∈ s.
Proof.
  unfold slices_Contains, slices_Index.
  rewrite Z.leb_le. by apply slices_Index_from_found.
Qed.

Lemma slices_Contains_false s v : slices_Contains s v = false ↔ v ∉ s.
Proof.
  rewrite <- slices_Contains_true. by destruct (slices_Contains s v).
Qed.

Lemma first_missing_None have want :
  first_missing have want = None ↔ want ⊆ have.
Proof.
  unfold first_missing. induction want as [|x want IH]; simpl.
  - split; [intros _ y Hy; by apply elem_of_nil in Hy | done].
  - destruct (slices_Contains have x) eqn:Hx; simpl.
    + apply slices_Contains_true in Hx. rewrite IH. split.
      * intros Hsub y [->|Hy]%elem_of_cons; auto.
      * intros Hsub y Hy. apply Hsub. by right.
    + apply slices_Contains_false in Hx. split; [done|].
      intros Hsub. destruct Hx. apply Hsub. by left.
Qed.

Lemma first_missing_Some have want f :
  first_missing have want = Some f → f ∈ want ∧ f ∉ have.
Proof.
  unfold first_missing. intros Hf. apply find_some in Hf as [Hin Hno].
  split; [by apply list_elem_of_In|].
  apply slices_Contains_false. by destruct (slices_Contains have f).
Qed.

(** A condition that fails has a first offender. *)
Lemma first_missing_exists have want :
  ¬ want ⊆ have → ∃ f, first_missing have want = Some f.
Proof.
  intros Hn. destruct (first_missing have want) as [f|] eqn:E; [by exists f|].
  by apply first_missing_None in E.
Qed.

(** ** Sequencing *)

Lemma bind_Return {A B} (m : Proc A) (f : A → Proc B) w a w1 cs1 :
  m w = (Return a, w1, cs1) →
  bind m f w = (result (f a w1), final (f a w1), cs1 ++ calls (f a w1)).
Proof.
  unfold bind, result, final, calls. intros ->.
  by destruct (f a w1) as [[r w2] cs2].
Qed.

Lemma bind_Goexit {A B} (m : Proc A) (f : A → Proc B) w e w1 cs1 :
  m w = (Goexit e, w1, cs1) → bind m f w = (Goexit e, w1, cs1).
Proof. unfold bind. by intros ->. Qed.

(** A step that returns at once, silently and without touching the store,
    can be dropped. *)
Lemma bind_skip {A B} (m : Proc A) (f : A → Proc B) w a :
  m w = (Return a, w, []) → bind m f w = f a w.
Proof.
  unfold bind. intros ->. by destruct (f a w) as [[r w2] cs2].
Qed.

(** ** The gate checks one by one *)

(** Both feature loops stop at the first feature the suite lacks, with one
    [t.Skip], and otherwise return having done nothing. *)
Lemma gate_loop (have : ConformanceTestSuite → list string)
    (msg : string → list Arg) (want : list string) w :
  for_range want (λ feature,
    bind get_suite (λ suite,
      if negb (slices_Contains (have suite) feature)
      then t_Skip (msg feature) else ret ())) w
  = match first_missing (have (the_suite w)) want with
    | Some f => (Goexit SkipNow, w, [T_Skip (msg f)])
    | None => (Return (), w, [])
    end.
Proof.
  unfold first_missing.
  induction want as [|x want IH]; simpl; [done|].
  destruct (slices_Contains (have (the_suite w)) x) eqn:Hx; simpl.
  - rewrite <- IH. apply (bind_skip _ (λ _, for_range want _) w ()).
    unfold bind, get_suite. by rewrite Hx.
  - apply bind_Goexit. unfold bind, get_suite. by rewrite Hx.
Qed.

Lemma check_Features_outcome test w :
  check_Features test w
  = match first_missing (suite_SupportedFeatures (the_suite w)) (Features test) with
    | Some f =>
        (Goexit SkipNow, w,
         [T_Skip [ AStr "Skipping %s: suite does not support %s";
                   AStr (ShortName test); AStr f ]])
    | None => (Return (), w, [])
    end.
Proof.
  apply (gate_loop suite_SupportedFeatures
           (λ f, [ AStr "Skipping %s: suite does not support %s";
                   AStr (ShortName test); AStr f ])).
Qed.

Lemma check_Exemptions_outcome test w :
  check_Exemptions test w
  = match first_missing (suite_ExemptFeatures (the_suite w)) (Exemptions test) with
    | Some f =>
        (Goexit SkipNow, w,
         [T_Skip [ AStr "Skipping %s: suite exempts %s";
                   AStr (ShortName test); AStr f ]])
    | None => (Return (), w, [])
    end.
Proof.
  apply (gate_loop suite_ExemptFeatures
           (λ f, [ AStr "Skipping %s: suite exempts %s";
                   AStr (ShortName test); AStr f ])).
Qed.

Lemma check_MinChannel_outcome test w :
  check_MinChannel test w
  = if Z.ltb (MinChannel test) (suite_MinChannel (the_suite w))
    then (Goexit SkipNow, w,
          [T_Skipf "Skipping %s: only testing %s channel"
             [ AStr (ShortName test); AChannel (suite_MinChannel (the_suite w)) ]])
    else (Return (), w, []).
Proof.
  unfold check_MinChannel, bind, get_suite.
  by destruct (Z.ltb (MinChannel test) (suite_MinChannel (the_suite w))).
Qed.

Lemma Parallel_outcome test w :
  (if Parallel test then t_Parallel else ret ()) w
  = (Return (), w, Parallel_calls test).
Proof. unfold Parallel_calls. by destruct (Parallel test). Qed.

(** One application logs, calls the applier, and returns or fails; the
    suite is left alone. *)
Lemma apply_Manifest_outcome m w :
  let o := apply_Manifest m w in
  (result o = Return () ∨ result o = Goexit FailNow) ∧
  the_suite (final o) = the_suite w ∧
  skipped (calls o) = false ∧ body_executed (calls o) = false.
Proof.
  unfold apply_Manifest, t_Logf, call, bind, get_suite, collaborator.
  destruct (MustApplyWithCleanup _ _ _ _ _ _) as [[[]|] cl]; cbn; auto.
Qed.

(** The manifest loop calls nothing but [t.Logf] and the applier, leaves
    the suite alone, and ends by returning or by a failed application. *)
Lemma apply_Manifests_outcome test w :
  let o := apply_Manifests test w in
  (result o = Return () ∨ result o = Goexit FailNow) ∧
  the_suite (final o) = the_suite w ∧
  skipped (calls o) = false ∧ body_executed (calls o) = false.
Proof.
  unfold apply_Manifests. generalize (Manifests test) as ms.
  induction ms as [|m ms IH] in w |- *; [cbn; auto|].
  cbn [for_range]. unfold bind.
  pose proof (apply_Manifest_outcome m w) as Hm. cbn zeta in Hm.
  destruct (apply_Manifest m w) as [[[[]|e] w1] cs1];
    unfold result, final, calls in Hm; cbn in Hm.
  - specialize (IH w1). cbn zeta in IH.
    destruct (for_range ms apply_Manifest w1) as [[r w2] cs2].
    unfold result, final, calls, skipped, body_executed in *; cbn in *.
    rewrite !existsb_app.
    destruct Hm as (_ & Hs & -> & ->), IH as (Hr & Hs' & -> & ->).
    rewrite Hs', Hs. auto.
  - unfold result, final, calls; cbn. tauto.
Qed.

(** ** Run, case by case *)

Lemma Run_stops_at_Features test w f :
  first_missing (suite_SupportedFeatures (the_suite w)) (Features test) = Some f →
  Run test w = (Goexit SkipNow, w, Parallel_calls test ++ [Skip_unsupported test f]).
Proof.
  intros Hf. unfold Run.
  rewrite (bind_Return _ _ _ _ _ _ (Parallel_outcome test w)).
  rewrite (bind_Goexit _ _ w SkipNow w [Skip_unsupported test f]); [done|].
  by rewrite check_Features_outcome, Hf.
Qed.

Lemma Run_stops_at_Exemptions test w f :
  first_missing (suite_SupportedFeatures (the_suite w)) (Features test) = None →
  first_missing (suite_ExemptFeatures (the_suite w)) (Exemptions test) = Some f →
  Run test w = (Goexit SkipNow, w, Parallel_calls test ++ [Skip_not_exempt test f]).
Proof.
  intros Hf He. unfold Run.
  rewrite (bind_Return _ _ _ _ _ _ (Parallel_outcome test w)).
  rewrite (bind_skip (check_Features test) _ w ());
    [|by rewrite check_Features_outcome, Hf].
  rewrite (bind_Goexit _ _ w SkipNow w [Skip_not_exempt test f]); [done|].
  by rewrite check_Exemptions_outcome, He.
Qed.

Lemma Run_stops_at_MinChannel test w :
  first_missing (suite_SupportedFeatures (the_suite w)) (Features test) = None →
  first_missing (suite_ExemptFeatures (the_suite w)) (Exemptions test) = None →
  MinChannel test < suite_MinChannel (the_suite w) →
  Run test w
  = (Goexit SkipNow, w, Parallel_calls test ++ [Skip_channel test (the_suite w)]).
Proof.
  intros Hf He Hc. unfold Run.
  rewrite (bind_Return _ _ _ _ _ _ (Parallel_outcome test w)).
  rewrite (bind_skip (check_Features test) _ w ());
    [|by rewrite check_Features_outcome, Hf].
  rewrite (bind_skip (check_Exemptions test) _ w ());
    [|by rewrite check_Exemptions_outcome, He].
  rewrite (bind_Goexit _ _ w SkipNow w [Skip_channel test (the_suite w)]); [done|].
  rewrite check_MinChannel_outcome.
  by apply Z.ltb_lt in Hc as ->.
Qed.

(** Past the gates, [Run] is the manifest loop followed by the body. *)
Lemma Run_past_gates test w :
  first_missing (suite_SupportedFeatures (the_suite w)) (Features test) = None →
  first_missing (suite_ExemptFeatures (the_suite w)) (Exemptions test) = None →
  suite_MinChannel (the_suite w) ≤ MinChannel test →
  let o := bind (apply_Manifests test) (λ _, call_Test test) w in
  Run test w = (result o, final o, Parallel_calls test ++ calls o).
Proof.
  intros Hf He Hc. unfold Run.
  rewrite (bind_Return _ _ _ _ _ _ (Parallel_outcome test w)).
  rewrite (bind_skip (check_Features test) _ w ());
    [|by rewrite check_Features_outcome, Hf].
  rewrite (bind_skip (check_Exemptions test) _ w ());
    [|by rewrite check_Exemptions_outcome, He].
  rewrite (bind_skip (check_MinChannel test) _ w ()); [done|].
  rewrite check_MinChannel_outcome.
  by apply Z.ltb_ge in Hc as ->.
Qed.

Lemma Parallel_calls_quiet test :
  skipped (Parallel_calls test) = false ∧
  body_executed (Parallel_calls test) = false ∧
  applications (Parallel_calls test) = [].
Proof. unfold Parallel_calls. by destruct (Parallel test). Qed.

(** The gates, decided the way [Run] decides them. *)
Lemma gates_hold_first_missing test suite :
  gates_hold test suite ↔
  first_missing (suite_SupportedFeatures suite) (Features test) = None ∧
  first_missing (suite_ExemptFeatures suite) (Exemptions test) = None ∧
  suite_MinChannel suite ≤ MinChannel test.
Proof.
  unfold gates_hold, features_supported, exemptions_granted, channel_admitted.
  by rewrite !first_missing_None.
Qed.

(** Whatever the test and the suite, a run ends in exactly one of four
    ways: it stops at one of the three gates, or it gets past them. *)
Lemma Run_cases test w :
  (∃ f, first_missing (suite_SupportedFeatures (the_suite w)) (Features test) = Some f) ∨
  (first_missing (suite_SupportedFeatures (the_suite w)) (Features test) = None ∧
   ∃ f, first_missing (suite_ExemptFeatures (the_suite w)) (Exemptions test) = Some f) ∨
  (first_missing (suite_SupportedFeatures (the_suite w)) (Features test) = None ∧
   first_missing (suite_ExemptFeatures (the_suite w)) (Exemptions test) = None ∧
   MinChannel test < suite_MinChannel (the_suite w)) ∨
  gates_hold test (the_suite w).
Proof.
  rewrite gates_hold_first_missing.
  destruct (first_missing (suite_SupportedFeatures _) _) as [f|]; [eauto|].
  destruct (first_missing (suite_ExemptFeatures _) _) as [f|]; [eauto 6|].
  destruct (Z.lt_ge_cases (MinChannel test) (suite_MinChannel (the_suite w)));
    [right; right; left | right; right; right]; auto.
Qed.

(** ** The gating policy *)

(** C1 (as amended).  A test is skipped exactly when one of the three gate
    conditions fails: a required feature the suite does not support, an
    exemption the suite does not list, or a minimum channel below the
    suite's.  Its body is executed exactly when all three conditions hold
    and every manifest of the test has been applied without failure. *)
Theorem Run_skip_and_body test w :
  (skipped (calls (Run test w)) = true ↔ ¬ gates_hold test (the_suite w)) ∧
  (body_executed (calls (Run test w)) = true ↔
     gates_hold test (the_suite w) ∧
     result (apply_Manifests test w) = Return ()).
Proof.
  destruct (Parallel_calls_quiet test) as (Hps & Hpb & _).
  destruct (Run_cases test w) as [[f Hf]|[[Hf [f He]]|[(Hf & He & Hc)|Hg]]].
  - rewrite (Run_stops_at_Features _ _ _ Hf).
    unfold calls, skipped, body_executed in *; cbn [snd].
    rewrite !existsb_app, Hps, Hpb; cbn.
    assert (¬ gates_hold test (the_suite w)) as Hn.
    { intros (H & _)%gates_hold_first_missing. congruence. }
    split; split; try done. by intros [? _].
  - rewrite (Run_stops_at_Exemptions _ _ _ Hf He).
    unfold calls, skipped, body_executed in *; cbn [snd].
    rewrite !existsb_app, Hps, Hpb; cbn.
    assert (¬ gates_hold test (the_suite w)) as Hn.
    { intros (_ & H & _)%gates_hold_first_missing. congruence. }
    split; split; try done. by intros [? _].
  - rewrite (Run_stops_at_MinChannel _ _ Hf He Hc).
    unfold calls, skipped, body_executed in *; cbn [snd].
    rewrite !existsb_app, Hps, Hpb; cbn.
    assert (¬ gates_hold test (the_suite w)) as Hn.
    { intros (_ & _ & H)%gates_hold_first_missing. lia. }
    split; split; try done. by intros [? _].
  - pose proof Hg as (Hf & He & Hc)%gates_hold_first_missing.
    rewrite (Run_past_gates _ _ Hf He Hc).
    pose proof (apply_Manifests_outcome test w) as (Hr & _ & Hs & Hb).
    unfold bind, call_Test.
    destruct (apply_Manifests test w) as [[[[]|e] w1] cs1];
      unfold result, final, calls, skipped, body_executed in *; cbn in *.
    + destruct (Test test w1) as [r w2]; cbn.
      rewrite !existsb_app, Hps, Hpb, Hs, Hb; cbn.
      split; split; done.
    + rewrite !existsb_app, Hps, Hpb, Hs, Hb; cbn.
      split; split; try done. by intros [_ ?].
Qed.

(** C3 (as amended).  The channel gate skips the test exactly when the
    test's minimum channel ordinal is strictly below the suite's configured
    minimum channel ordinal. *)
Theorem check_MinChannel_skips_iff_below test w :
  result (check_MinChannel test w) = Goexit SkipNow ↔
  MinChannel test < suite_MinChannel (the_suite w).
Proof.
  rewrite check_MinChannel_outcome, <- Z.ltb_lt.
  by destruct (Z.ltb (MinChannel test) (suite_MinChannel (the_suite w))).
Qed.

(** C4.  If any one of the three gate checks fails for a test under a
    suite, the run is a skip, the store is as it was, and no call to the
    applier has been made: no manifest of the test is applied. *)
Theorem Run_failed_gate_applies_nothing test w :
  ¬ features_supported test (the_suite w) ∨
  ¬ exemptions_granted test (the_suite w) ∨
  ¬ channel_admitted test (the_suite w) →
  result (Run test w) = Goexit SkipNow ∧
  final (Run test w) = w ∧
  applications (calls (Run test w)) = [].
Proof.
  intros Hfail.
  destruct (Parallel_calls_quiet test) as (_ & _ & Hpa).
  destruct (Run_cases test w) as [[f Hf]|[[Hf [f He]]|[(Hf & He & Hc)|Hg]]].
  - rewrite (Run_stops_at_Features _ _ _ Hf).
    unfold result, final, calls, applications in *; cbn [fst snd].
    by rewrite filter_app, Hpa.
  - rewrite (Run_stops_at_Exemptions _ _ _ Hf He).
    unfold result, final, calls, applications in *; cbn [fst snd].
    by rewrite filter_app, Hpa.
  - rewrite (Run_stops_at_MinChannel _ _ Hf He Hc).
    unfold result, final, calls, applications in *; cbn [fst snd].
    by rewrite filter_app, Hpa.
  - destruct Hg as (? & ? & ?). tauto.
Qed.

(** C5.  The gate checks run in a fixed order and the first that fails
    ends the run.  An unsupported required feature gives the skip of the
    required-feature check, whatever the exemptions and the channel are;
    the skip of the exemption check is only reached when every required
    feature is supported, and the skip of the channel check only when both
    feature checks pass.  In each case the skip is the last call of the
    run: no later check and no manifest application follows. *)
Theorem Run_gate_order test w :
  (¬ features_supported test (the_suite w) →
   ∃ f, f ∈ Features test ∧ (f ∉ suite_SupportedFeatures (the_suite w)) ∧
     Run test w
     = (Goexit SkipNow, w, Parallel_calls test ++ [Skip_unsupported test f])) ∧
  (features_supported test (the_suite w) →
   ¬ exemptions_granted test (the_suite w) →
   ∃ f, f ∈ Exemptions test ∧ (f ∉ suite_ExemptFeatures (the_suite w)) ∧
     Run test w
     = (Goexit SkipNow, w, Parallel_calls test ++ [Skip_not_exempt test f])) ∧
  (features_supported test (the_suite w) →
   exemptions_granted test (the_suite w) →
   ¬ channel_admitted test (the_suite w) →
   Run test w
   = (Goexit SkipNow, w, Parallel_calls test ++ [Skip_channel test (the_suite w)])).
Proof.
  unfold features_supported, exemptions_granted, channel_admitted.
  split; [|split].
  - intros [f Hf]%first_missing_exists. exists f.
    destruct (first_missing_Some _ _ _ Hf) as [Hin Hout].
    split; [done|]. split; [done|]. by apply Run_stops_at_Features.
  - intros Hs%first_missing_None [f He]%first_missing_exists. exists f.
    destruct (first_missing_Some _ _ _ He) as [Hin Hout].
    split; [done|]. split; [done|]. by apply Run_stops_at_Exemptions.
  - intros Hs%first_missing_None He%first_missing_None Hc.
    apply Run_stops_at_MinChannel; [done|done|lia].
Qed.

(** C10.  Under a suite whose minimum channel is the zero value, the
    channel gate skips no test whose channel ordinal is not below zero: it
    returns without a call and leaves the store as it was. *)
Theorem check_MinChannel_zero_suite test w :
  suite_MinChannel (the_suite w) = 0 →
  0 ≤ MinChannel test →
  check_MinChannel test w = (Return (), w, []).
Proof.
  intros Hz Hc. rewrite check_MinChannel_outcome, Hz.
  by apply Z.ltb_ge in Hc as ->.
Qed.

(** ** Setup *)

(** [Setup] makes the calls of [Setup_calls] in order and stops at the
    first collaborator that fails; the suite is touched once, after the
    acceptance checker has returned, and only in its [ControllerName]. *)
Lemma Setup_outcome w :
  let s := the_suite w in
  (accepted_in_time w = None ∧
   result (Setup w) = Goexit FailNow ∧
   the_suite (final (Setup w)) = s ∧
   calls (Setup w) = take 2 (Setup_calls s)) ∨
  (∃ name, accepted_in_time w = Some name ∧
   the_suite (final (Setup w)) = set_ControllerName name s ∧
   ((result (Setup w) = Goexit FailNow ∧ calls (Setup w) = take 4 (Setup_calls s)) ∨
    calls (Setup w) = Setup_calls s)).
Proof.
  unfold accepted_in_time, Setup, Setup_calls, t_Logf, call, bind, get_suite,
    put_suite, collaborator, result, final, calls.
  destruct w as [s cl]; cbn.
  destruct (GWCMustBeAccepted _ _ _ cl) as [[name|] cl1]; cbn; [right|left; done].
  exists name. split; [done|].
  destruct (MustApplyWithCleanup _ _ _ _ _ cl1) as [[[]|] cl2]; cbn;
    [|split; [done|left; done]].
  destruct (NamespacesMustBeReady _ _ _ cl2) as [[[]|] cl3]; cbn;
    (split; [done|right; done]).
Qed.

(** C6.  If the class is not observed as accepted within the bound of 180,
    [Setup] fails the run and makes no call to the applier: the base
    manifests are never applied.  In every run of [Setup] the calls made
    are an initial part of [Setup_calls]: the acceptance check comes before
    the application of the base manifests, which comes before the wait for
    the namespaces with its bound of 300. *)
Theorem Setup_acceptance_before_manifests w :
  (accepted_in_time w = None →
   result (Setup w) = Goexit FailNow ∧ applications (calls (Setup w)) = []) ∧
  calls (Setup w) `prefix_of` Setup_calls (the_suite w).
Proof.
  destruct (Setup_outcome w) as
    [(Hn & Hr & _ & Hc)|(name & Hn & _ & [[_ Hc]|Hc])]; rewrite Hc.
  - split; [done|]. apply prefix_take.
  - split; [congruence|]. apply prefix_take.
  - split; [congruence|done].
Qed.

(** C8.  [Setup] assigns only the [ControllerName] of the suite: however it
    ends, every other field of the suite is what it was. *)
Theorem Setup_assigns_only_ControllerName w :
  let s := the_suite w in
  let s' := the_suite (final (Setup w)) in
  suite_Client s' = suite_Client s ∧
  suite_RoundTripper s' = suite_RoundTripper s ∧
  suite_GatewayClassName s' = suite_GatewayClassName s ∧
  suite_Debug s' = suite_Debug s ∧
  suite_Cleanup s' = suite_Cleanup s ∧
  suite_BaseManifests s' = suite_BaseManifests s ∧
  suite_Applier s' = suite_Applier s ∧
  suite_ExemptFeatures s' = suite_ExemptFeatures s ∧
  suite_SupportedFeatures s' = suite_SupportedFeatures s ∧
  suite_MinChannel s' = suite_MinChannel s.
Proof.
  cbn zeta.
  destruct (Setup_outcome w) as [(_ & _ & -> & _)|(name & _ & -> & _)];
    by repeat split.
Qed.

(** ** The constructor *)

Lemma New_MinChannel (o : Options) :
  suite_MinChannel (New o) = opt_MinChannel o.
Proof. unfold New. by destruct (String.eqb _ _). Qed.

(** C7.  With an empty manifest path in the options, the suite's base
    manifests are ["base/manifests.yaml"]; a path that is not empty is kept
    as given. *)
Theorem New_BaseManifests (o : Options) :
  (opt_BaseManifests o = "" → suite_BaseManifests (New o) = "base/manifests.yaml") ∧
  (opt_BaseManifests o ≠ "" → suite_BaseManifests (New o) = opt_BaseManifests o).
Proof.
  unfold New; cbn [suite_BaseManifests].
  destruct (String.eqb_spec (opt_BaseManifests o) "") as [->|Hne]; by split.
Qed.

(** C9.  With no round-tripper in the options, the suite's round-tripper is
    the default one carrying the options' debug flag; a round-tripper that
    is provided is used as given.  Either way the suite's round-tripper is
    not nil. *)
Theorem New_RoundTripper (o : Options) :
  (opt_RoundTripper o = None →
   suite_RoundTripper (New o) = Some (DefaultRoundTripper (opt_Debug o))) ∧
  (∀ rt, opt_RoundTripper o = Some rt → suite_RoundTripper (New o) = Some rt) ∧
  suite_RoundTripper (New o) ≠ None.
Proof.
  unfold New.
  destruct (String.eqb _ _); cbn; destruct (opt_RoundTripper o);
    repeat split; congruence.
Qed.

End Facts.

(** * The properties on the sample cluster *)

Section Samples.
#[local] Existing Instance sample.

(** C1, as first stated, fails: [broken_Test] meets all three gate
    conditions of the standard suite, yet its body is not executed, because
    the application of its manifest fails the run. *)
Lemma Run_gates_hold_body_not_executed :
  ¬ (body_executed (calls (Run broken_Test standard_Store)) = true ↔
     gates_hold broken_Test (the_suite standard_Store)).
Proof.
  intros [_ H].
  assert (gates_hold broken_Test (the_suite standard_Store)) as Hg.
  { apply gates_hold_first_missing. vm_compute. repeat split; discriminate. }
  specialize (H Hg). vm_compute in H. discriminate.
Qed.

(** C2 on the zero options: the suite's minimum channel is the zero value,
    not the standard channel. *)
Lemma New_zero_Options_MinChannel :
  suite_MinChannel (New zero_Options) = 0 ∧
  suite_MinChannel (New zero_Options) ≠ StandardChannel.
Proof. split; [reflexivity | discriminate]. Qed.

(** C3, as first stated, fails: the standard test's channel ordinal exceeds
    that of the experimental suite, and the channel gate does not skip it. *)
Lemma check_MinChannel_above_not_skipped :
  ¬ (result (check_MinChannel standard_Test experimental_Store) = Goexit SkipNow ↔
     suite_MinChannel (the_suite experimental_Store) < MinChannel standard_Test).
Proof.
  intros [_ H]. assert (1 < 2) as Hlt by lia.
  specialize (H Hlt). vm_compute in H. discriminate.
Qed.

(** A test that requires a feature the standard suite does not support:
    skipped, with nothing applied. *)
Lemma Run_failed_gate_applies_nothing_witness :
  ¬ features_supported needy_Test (the_suite standard_Store) ∧
  result (Run needy_Test standard_Store) = Goexit SkipNow ∧
  final (Run needy_Test standard_Store) = standard_Store ∧
  applications (calls (Run needy_Test standard_Store)) = [].
Proof.
  assert (¬ features_supported needy_Test (the_suite standard_Store)) as Hn.
  { intros H%first_missing_None. vm_compute in H. discriminate. }
  split; [exact Hn|].
  apply (Run_failed_gate_applies_nothing needy_Test standard_Store).
  left. exact Hn.
Defined.

(** A test that fails both the required-feature check and the channel
    check: the skip is that of the required-feature check. *)
Lemma Run_gate_order_witness :
  ¬ features_supported needy_Test (the_suite standard_Store) ∧
  ¬ channel_admitted needy_Test (the_suite standard_Store) ∧
  ∃ f, f ∈ Features needy_Test ∧
    (f ∉ suite_SupportedFeatures (the_suite standard_Store)) ∧
    Run needy_Test standard_Store
    = (Goexit SkipNow, standard_Store,
       Parallel_calls needy_Test ++ [Skip_unsupported needy_Test f]).
Proof.
  assert (¬ features_supported needy_Test (the_suite standard_Store)) as Hn.
  { intros H%first_missing_None. vm_compute in H. discriminate. }
  split; [exact Hn|]. split; [vm_compute; intros H; by apply H|].
  exact (proj1 (Run_gate_order needy_Test standard_Store) Hn).
Defined.

(** The suite made from the zero options lets an experimental test past
    the channel gate. *)
Lemma check_MinChannel_zero_suite_witness :
  suite_MinChannel (the_suite zero_Store) = 0 ∧
  0 ≤ MinChannel experimental_Test ∧
  check_MinChannel experimental_Test zero_Store = (Return (), zero_Store, []).
Proof.
  split; [reflexivity|]. split; [vm_compute; discriminate|].
  apply (check_MinChannel_zero_suite experimental_Test zero_Store);
    [reflexivity | vm_compute; discriminate].
Defined.

(** A class the cluster never accepts: [Setup] fails and applies nothing. *)
Lemma Setup_acceptance_before_manifests_witness :
  accepted_in_time unaccepted_Store = None ∧
  result (Setup unaccepted_Store) = Goexit FailNow ∧
  applications (calls (Setup unaccepted_Store)) = [].
Proof.
  split; [reflexivity|].
  apply (proj1 (Setup_acceptance_before_manifests unaccepted_Store)).
  reflexivity.
Defined.

(** The default path and a given path. *)
Lemma New_BaseManifests_witness :
  opt_BaseManifests zero_Options = "" ∧
  suite_BaseManifests (New zero_Options) = "base/manifests.yaml" ∧
  opt_BaseManifests (sample_Options "accepted-class" StandardChannel) ≠ "" ∧
  suite_BaseManifests (New (sample_Options "accepted-class" StandardChannel))
  = "conformance/base.yaml".
Proof.
  split; [reflexivity|]. split.
  - apply (proj1 (New_BaseManifests zero_Options)). reflexivity.
  - split; [discriminate|].
    apply (proj2 (New_BaseManifests (sample_Options "accepted-class" StandardChannel))).
    discriminate.
Defined.

(** The default round-tripper and a given one. *)
Lemma New_RoundTripper_witness :
  opt_RoundTripper zero_Options = None ∧
  suite_RoundTripper (New zero_Options) = Some (DefaultRoundTripper false) ∧
  suite_RoundTripper (New (sample_Options "accepted-class" StandardChannel))
  = Some (OtherRoundTripper ()).
Proof.
  split; [reflexivity|]. split.
  - apply (proj1 (New_RoundTripper zero_Options)). reflexivity.
  - apply (proj1 (proj2 (New_RoundTripper
             (sample_Options "accepted-class" StandardChannel)))).
    reflexivity.
Defined.

End Samples.

(** * Further properties of the procedures *)

Section Coverage.
Context `{K : Collaborators}.

(** ** The manifest loop, call by call *)

Lemma apply_Manifest_step m w :
  ∃ r cl,
    apply_Manifest m w
    = (r, {| the_suite := the_suite w; the_cluster := cl |},
       [T_Logf "Applying %s" [AStr m]; Manifest_call (the_suite w) m]) ∧
    (r = Return () ∨ r = Goexit FailNow).
Proof.
  unfold apply_Manifest, Manifest_call, t_Logf, call, bind, get_suite, collaborator.
  destruct (MustApplyWithCleanup _ _ _ _ _ _) as [[[]|] cl]; cbn; eauto.
Qed.

Lemma applications_app cs1 cs2 :
  applications (cs1 ++ cs2) = applications cs1 ++ applications cs2.
Proof. unfold applications. apply filter_app. Qed.

Lemma applications_step m suite cs :
  applications (T_Logf "Applying %s" [AStr m] :: Manifest_call suite m :: cs)
  = Manifest_call suite m :: applications cs.
Proof. done. Qed.

(** The loop either applies every manifest, in order, or stops right after
    the first application that fails. *)
Lemma for_range_apply_Manifest ms w :
  let o := for_range ms apply_Manifest w in
  the_suite (final o) = the_suite w ∧ (T_Parallel ∉ calls o) ∧
  ((result o = Return () ∧
    applications (calls o) = Manifest_call (the_suite w) <$> ms) ∨
   (result o = Goexit FailNow ∧
    ∃ ms1 m ms2 cs, ms = ms1 ++ m :: ms2 ∧
      applications (calls o) = Manifest_call (the_suite w) <$> (ms1 ++ [m]) ∧
      calls o = cs ++ [Manifest_call (the_suite w) m])).
Proof.
  induction ms as [|m ms IH] in w |- *; cbn zeta.
  { cbn. split; [done|]. split; [by intros ?%elem_of_nil|]. by left. }
  cbn [for_range]. unfold bind.
  destruct (apply_Manifest_step m w) as (r & cl & -> & [->| ->]).
  - set (w1 := {| the_suite := the_suite w; the_cluster := cl |}).
    specialize (IH w1). cbn zeta in IH.
    destruct (for_range ms apply_Manifest w1) as [[r2 w2] cs2].
    unfold result, final, calls in *; cbn [fst snd app] in *.
    change (the_suite w1) with (the_suite w) in IH.
    destruct IH as (Hs & Hp & IH). split; [done|]. split.
    { intros [?|[?|?]%elem_of_cons]%elem_of_cons; done. }
    rewrite applications_step.
    destruct IH as [[-> Ha]|(-> & ms1 & m' & ms2 & cs & -> & Ha & ->)].
    + left. by rewrite Ha.
    + right. split; [done|].
      exists (m :: ms1), m', ms2,
        (T_Logf "Applying %s" [AStr m] :: Manifest_call (the_suite w) m :: cs).
      by rewrite Ha.
  - unfold result, final, calls; cbn [fst snd].
    split; [done|]. split.
    { intros [?|[?|?%elem_of_nil]%elem_of_cons]%elem_of_cons; done. }
    right. split; [done|].
    by exists [], m, ms, [T_Logf "Applying %s" [AStr m]].
Qed.

(** [Run] once the gates are passed, spelled out. *)
Lemma Run_admitted_form test w :
  gates_hold test (the_suite w) →
  Run test w
  = match apply_Manifests test w with
    | (Return _, w1, cs) =>
        ((Test test w1).1, (Test test w1).2,
         Parallel_calls test ++ cs ++ [Call_Test (ShortName test)])
    | (Goexit e, w1, cs) => (Goexit e, w1, Parallel_calls test ++ cs)
    end.
Proof.
  intros (Hf & He & Hc)%gates_hold_first_missing.
  rewrite (Run_past_gates _ _ Hf He Hc). unfold bind, call_Test.
  destruct (apply_Manifests test w) as [[[[]|e] w1] cs]; [|done].
  by destruct (Test test w1) as [r w2].
Qed.

(** A run that stops at a gate: a skip, the store as it was, and after
    [t.Parallel] the skip as the only call. *)
Lemma Run_stopped_form test w :
  ¬ gates_hold test (the_suite w) →
  ∃ c, is_skip c = true ∧
    Run test w = (Goexit SkipNow, w, Parallel_calls test ++ [c]).
Proof.
  intros Hn.
  destruct (Run_cases test w) as [[f Hf]|[[Hf [f He]]|[(Hf & He & Hc)|Hg]]].
  - eexists. split; [|by apply Run_stops_at_Features]. done.
  - eexists. split; [|by apply Run_stops_at_Exemptions]. done.
  - eexists. split; [|by apply Run_stops_at_MinChannel]. done.
  - done.
Qed.

Lemma gates_hold_dec test suite :
  gates_hold test suite ∨ ¬ gates_hold test suite.
Proof.
  rewrite gates_hold_first_missing.
  destruct (first_missing (suite_SupportedFeatures suite) (Features test));
    [right; by intros [? _]|].
  destruct (first_missing (suite_ExemptFeatures suite) (Exemptions test));
    [right; by intros (_ & ? & _)|].
  destruct (Z.le_gt_cases (suite_MinChannel suite) (MinChannel test));
    [by left | right; intros (_ & _ & ?); lia].
Qed.

Lemma applications_Parallel_calls test cs :
  applications (Parallel_calls test ++ cs) = applications cs.
Proof.
  rewrite applications_app.
  by destruct (Parallel_calls_quiet test) as (_ & _ & ->).
Qed.

(** A test is skipped exactly when it fails the gate of the suite. *)
Lemma Run_skipped_gates test w :
  skipped (calls (Run test w)) = true ↔ ¬ gates_hold test (the_suite w).
Proof.
  destruct (Parallel_calls_quiet test) as (Hps & _ & _).
  destruct (gates_hold_dec test (the_suite w)) as [Hg|Hn].
  - rewrite (Run_admitted_form _ _ Hg).
    destruct (for_range_apply_Manifest (Manifests test) w) as (_ & _ & _).
    pose proof (apply_Manifests_outcome test w) as (_ & _ & Hs & _).
    destruct (apply_Manifests test w) as [[[[]|e] w1] cs];
      unfold calls, skipped in *; cbn [snd] in *;
      rewrite ?existsb_app, Hps, Hs; cbn; split; done.
  - destruct (Run_stopped_form _ _ Hn) as (c & Hc & ->).
    unfold calls, skipped in *; cbn [snd].
    rewrite existsb_app, Hps; cbn. rewrite Hc. done.
Qed.

(** ** The per-test Run beyond its gates *)

(** X1.  Whatever the test and the store, the calls [Run] makes on the
    applier are an initial part of the test's manifest list, in the list's
    order, each for the suite's applier, client and class name and with
    cleanup on: [Run] applies nothing else, and nothing out of order. *)
Theorem Run_applies_own_manifests_in_order test w :
  applications (calls (Run test w))
    `prefix_of` (Manifest_call (the_suite w) <$> Manifests test).
Proof.
  destruct (gates_hold_dec test (the_suite w)) as [Hg|Hn].
  - rewrite (Run_admitted_form _ _ Hg).
    destruct (for_range_apply_Manifest (Manifests test) w) as (_ & _ & H).
    fold (apply_Manifests test) in H.
    destruct (apply_Manifests test w) as [[[[]|e] w1] cs];
      unfold result, calls in *; cbn [fst snd] in *;
      rewrite applications_Parallel_calls, ?applications_app.
    + destruct H as [[_ ->]|[? _]]; [|done].
      cbn. by rewrite app_nil_r.
    + destruct H as [[? _]|(_ & ms1 & m & ms2 & cs' & -> & -> & _)]; [done|].
      rewrite !fmap_app. apply prefix_app. cbn.
      apply prefix_cons, prefix_nil.
  - destruct (Run_stopped_form _ _ Hn) as (c & Hc & ->).
    unfold calls; cbn [snd]. rewrite applications_Parallel_calls.
    destruct c; try done; apply prefix_nil.
Qed.

(** X2.  When the gates hold and the manifest loop returns, every manifest
    of the test has been applied, the body is the last call, it is run on
    the store the manifests left, with the suite as it was, and its result
    and store are those of [Run]. *)
Theorem Run_admitted_runs_body test w :
  gates_hold test (the_suite w) →
  result (apply_Manifests test w) = Return () →
  let w1 := final (apply_Manifests test w) in
  the_suite w1 = the_suite w ∧
  result (Run test w) = (Test test w1).1 ∧
  final (Run test w) = (Test test w1).2 ∧
  calls (Run test w)
  = Parallel_calls test ++ calls (apply_Manifests test w)
      ++ [Call_Test (ShortName test)] ∧
  applications (calls (Run test w))
  = Manifest_call (the_suite w) <$> Manifests test.
Proof.
  intros Hg Hr. cbn zeta. rewrite (Run_admitted_form _ _ Hg).
  destruct (for_range_apply_Manifest (Manifests test) w) as (Hs & _ & H).
  fold (apply_Manifests test) in H, Hs.
  destruct (apply_Manifests test w) as [[[[]|e] w1] cs];
    unfold result, final, calls in *; cbn [fst snd] in *; [|done].
  repeat split; [done|].
  rewrite applications_Parallel_calls, applications_app.
  destruct H as [[_ ->]|[? _]]; [|done].
  cbn. by rewrite app_nil_r.
Qed.

(** X3.  When the gates hold and an application fails, [Run] fails the run:
    the failed application, of one of the test's manifests, is its last
    call, the body is not executed and the test is not skipped. *)
Theorem Run_failed_application_ends_run test w :
  gates_hold test (the_suite w) →
  result (apply_Manifests test w) ≠ Return () →
  result (Run test w) = Goexit FailNow ∧
  body_executed (calls (Run test w)) = false ∧
  skipped (calls (Run test w)) = false ∧
  ∃ cs m, m ∈ Manifests test ∧
    calls (Run test w) = cs ++ [Manifest_call (the_suite w) m].
Proof.
  intros Hg Hr.
  assert (skipped (calls (Run test w)) = false) as Hsk.
  { destruct (skipped _) eqn:E; [|done]. by apply Run_skipped_gates in E. }
  revert Hsk. rewrite (Run_admitted_form _ _ Hg).
  destruct (Parallel_calls_quiet test) as (_ & Hpb & _).
  pose proof (apply_Manifests_outcome test w) as (_ & _ & _ & Hb).
  destruct (for_range_apply_Manifest (Manifests test) w) as (_ & _ & H).
  fold (apply_Manifests test) in H.
  destruct (apply_Manifests test w) as [[[[]|e] w1] cs];
    unfold result, final, calls, body_executed in *; cbn [fst snd] in *; [done|].
  destruct H as [[? _]|(He & ms1 & m & ms2 & cs' & Hms & _ & ->)]; [done|].
  intros Hsk. split; [done|]. split; [by rewrite existsb_app, Hpb, Hb|].
  split; [done|]. exists (Parallel_calls test ++ cs'), m. split.
  - rewrite Hms. apply elem_of_app. right. by left.
  - by rewrite app_assoc.
Qed.

(** X4.  [Run] returns only through the body: a run that returns has
    executed the body; a run that does not reach it ends in an exit. *)
Theorem Run_returns_only_through_body test w :
  result (Run test w) = Return () →
  body_executed (calls (Run test w)) = true.
Proof.
  destruct (gates_hold_dec test (the_suite w)) as [Hg|Hn].
  - rewrite (Run_admitted_form _ _ Hg).
    pose proof (apply_Manifests_outcome test w) as (Hr & _).
    destruct (apply_Manifests test w) as [[[[]|e] w1] cs];
      unfold result, calls, body_executed in *; cbn [fst snd] in *.
    + intros _. rewrite !existsb_app. cbn. by rewrite !orb_true_r.
    + destruct Hr as [?|[= ->]]; done.
  - by destruct (Run_stopped_form _ _ Hn) as (c & Hc & ->).
Qed.

(** Up to the body, [Run] leaves the suite alone; past it, the suite is
    what the body made of it. *)
Lemma Run_final_suite test w :
  (body_executed (calls (Run test w)) = false ∧
   the_suite (final (Run test w)) = the_suite w) ∨
  (body_executed (calls (Run test w)) = true ∧
   ∃ w1, the_suite w1 = the_suite w ∧ final (Run test w) = (Test test w1).2).
Proof.
  destruct (Parallel_calls_quiet test) as (_ & Hpb & _).
  destruct (gates_hold_dec test (the_suite w)) as [Hg|Hn].
  - rewrite (Run_admitted_form _ _ Hg).
    pose proof (apply_Manifests_outcome test w) as (_ & Hs & _ & Hb).
    destruct (apply_Manifests test w) as [[[[]|e] w1] cs];
      unfold final, calls, body_executed in *; cbn [fst snd] in *.
    + right. split; [|by exists w1].
      rewrite !existsb_app. cbn. by rewrite !orb_true_r.
    + left. by rewrite existsb_app, Hpb, Hb.
  - destruct (Run_stopped_form _ _ Hn) as (c & Hc & ->). left.
    unfold final, calls, body_executed in *; cbn [fst snd].
    rewrite existsb_app, Hpb. by destruct c.
Qed.

(** X5.  [Run] itself never writes to the suite: when the body is not
    executed, or when the body leaves the suite as it found it, the suite
    after the run is the suite before it. *)
Theorem Run_keeps_suite test w :
  body_executed (calls (Run test w)) = false ∨ keeps_suite test →
  the_suite (final (Run test w)) = the_suite w.
Proof.
  intros Hk.
  destruct (Run_final_suite test w) as [[_ ?]|(Hb & w1 & Hs & ->)]; [done|].
  destruct Hk as [Hn|Hk]; [congruence|]. by rewrite Hk.
Qed.

(** X6.  [t.Parallel] is called exactly by the tests marked parallel, and
    then it is the first call of the run, before any gate check: a parallel
    test announces itself even when it is then skipped. *)
Theorem Run_Parallel_first test w :
  Parallel_calls test `prefix_of` calls (Run test w) ∧
  (T_Parallel ∈ calls (Run test w) ↔ Parallel test = true).
Proof.
  assert (T_Parallel ∈ Parallel_calls test ↔ Parallel test = true) as Hp.
  { unfold Parallel_calls. destruct (Parallel test); split; try done.
    - intros _. by left.
    - by intros ?%elem_of_nil. }
  destruct (gates_hold_dec test (the_suite w)) as [Hg|Hn].
  - rewrite (Run_admitted_form _ _ Hg).
    destruct (for_range_apply_Manifest (Manifests test) w) as (_ & Hno & _).
    fold (apply_Manifests test) in Hno.
    destruct (apply_Manifests test w) as [[[[]|e] w1] cs];
      unfold calls in *; cbn [snd] in *.
    + split; [by apply prefix_app_r|].
      rewrite !elem_of_app, Hp, list_elem_of_singleton.
      split; [intros [?|[?|?]]; done | by left].
    + split; [by apply prefix_app_r|].
      rewrite elem_of_app, Hp. split; [intros [?|?]; done | by left].
  - destruct (Run_stopped_form _ _ Hn) as (c & Hc & ->).
    unfold calls; cbn [snd]. split; [by apply prefix_app_r|].
    rewrite elem_of_app, Hp, list_elem_of_singleton.
    split; [|by left]. intros [?|<-]; done.
Qed.

(** X7.  Widening a suite never costs a test: a test that is not skipped
    under a suite is not skipped under a suite that supports at least the
    same features, lists at least the same exemptions and has a minimum
    channel no higher. *)
Theorem Run_wider_suite_still_admits test w w' :
  suite_SupportedFeatures (the_suite w) ⊆ suite_SupportedFeatures (the_suite w') →
  suite_ExemptFeatures (the_suite w) ⊆ suite_ExemptFeatures (the_suite w') →
  suite_MinChannel (the_suite w') ≤ suite_MinChannel (the_suite w) →
  skipped (calls (Run test w)) = false →
  skipped (calls (Run test w')) = false.
Proof.
  intros Hf He Hc Hs.
  destruct (skipped (calls (Run test w'))) eqn:E; [|done].
  apply Run_skipped_gates in E.
  destruct (gates_hold_dec test (the_suite w)) as [(Hgf & Hge & Hgc)|Hn].
  - destruct E. unfold gates_hold, features_supported, exemptions_granted,
      channel_admitted in *.
    split; [by etrans|]. split; [by etrans|]. lia.
  - apply Run_skipped_gates in Hn. congruence.
Qed.

Lemma first_missing_app have l1 f l2 :
  l1 ⊆ have → f ∉ have → first_missing have (l1 ++ f :: l2) = Some f.
Proof.
  intros Hl Hf. unfold first_missing.
  induction l1 as [|x l1 IH]; cbn.
  - apply slices_Contains_false in Hf. by rewrite Hf.
  - assert (x ∈ have) as Hx by (apply Hl; by left).
    apply slices_Contains_true in Hx. rewrite Hx; cbn.
    apply IH. intros y Hy. apply Hl. by right.
Qed.

(** X8.  The skip of the required-feature check names the first feature,
    in the order of the test's list, that the suite does not support. *)
Theorem Run_names_first_unsupported test w l1 f l2 :
  Features test = l1 ++ f :: l2 →
  l1 ⊆ suite_SupportedFeatures (the_suite w) →
  f ∉ suite_SupportedFeatures (the_suite w) →
  Run test w
  = (Goexit SkipNow, w, Parallel_calls test ++ [Skip_unsupported test f]).
Proof.
  intros Hl Hs Hf. apply Run_stops_at_Features.
  rewrite Hl. by apply first_missing_app.
Qed.

(** ** Setup, path by path *)

(** [Setup] as a function of what its three collaborators answer. *)
Lemma Setup_form w :
  let s := the_suite w in
  Setup w
  = match GWCMustBeAccepted (suite_Client s) (suite_GatewayClassName s) 180
            (the_cluster w) with
    | (None, cl1) =>
        (Goexit FailNow, {| the_suite := s; the_cluster := cl1 |},
         take 2 (Setup_calls s))
    | (Some name, cl1) =>
        let s1 := set_ControllerName name s in
        match MustApplyWithCleanup (suite_Applier s) (suite_Client s)
                (suite_BaseManifests s) (suite_GatewayClassName s)
                (suite_Cleanup s) cl1 with
        | (None, cl2) =>
            (Goexit FailNow, {| the_suite := s1; the_cluster := cl2 |},
             take 4 (Setup_calls s))
        | (Some _, cl2) =>
            match NamespacesMustBeReady (suite_Client s)
                    [ "gateway-conformance-infra";
                      "gateway-conformance-app-backend";
                      "gateway-conformance-web-backend" ] 300 cl2 with
            | (Some _, cl3) =>
                (Return (), {| the_suite := s1; the_cluster := cl3 |},
                 Setup_calls s)
            | (None, cl3) =>
                (Goexit FailNow, {| the_suite := s1; the_cluster := cl3 |},
                 Setup_calls s)
            end
        end
    end.
Proof.
  unfold Setup, Setup_calls, t_Logf, call, bind, get_suite, put_suite,
    collaborator.
  destruct w as [s cl]; cbn.
  destruct (GWCMustBeAccepted _ _ _ cl) as [[name|] cl1]; cbn; [|done].
  destruct (MustApplyWithCleanup _ _ _ _ _ cl1) as [[[]|] cl2]; cbn; [|done].
  by destruct (NamespacesMustBeReady _ _ _ cl2) as [[[]|] cl3].
Qed.

(** X9.  The controller name is recorded as soon as the class is accepted:
    after [Setup], however it ends, the suite's [ControllerName] is the name
    the acceptance checker returned, and it is the old name when the class
    was not accepted. *)
Theorem Setup_ControllerName w :
  suite_ControllerName (the_suite (final (Setup w)))
  = default (suite_ControllerName (the_suite w)) (accepted_in_time w).
Proof.
  pose proof (Setup_form w) as H. cbn zeta in H. unfold accepted_in_time.
  destruct (GWCMustBeAccepted _ _ _ _) as [[name|] cl1]; [|by rewrite H].
  destruct (MustApplyWithCleanup _ _ _ _ _ cl1) as [[[]|] cl2]; [|by rewrite H].
  destruct (NamespacesMustBeReady _ _ _ cl2) as [[[]|] cl3]; by rewrite H.
Qed.

(** X10.  [Setup] returns only after all of its calls: when it returns,
    the class was accepted, the base manifests were applied and the
    namespaces were awaited, in this order, and the suite differs from the
    one before only by the accepted controller's name. *)
Theorem Setup_returns_after_all_calls w :
  result (Setup w) = Return () →
  calls (Setup w) = Setup_calls (the_suite w) ∧
  applications (calls (Setup w)) = [Base_call (the_suite w)] ∧
  ∃ name, accepted_in_time w = Some name ∧
    the_suite (final (Setup w)) = set_ControllerName name (the_suite w).
Proof.
  pose proof (Setup_form w) as H. cbn zeta in H. unfold accepted_in_time.
  destruct (GWCMustBeAccepted _ _ _ _) as [[name|] cl1]; [|by rewrite H].
  destruct (MustApplyWithCleanup _ _ _ _ _ cl1) as [[[]|] cl2]; [|by rewrite H].
  destruct (NamespacesMustBeReady _ _ _ cl2) as [[[]|] cl3]; rewrite H; [|done].
  intros _. split; [done|]. split; [done|]. by exists name.
Qed.

(** X11.  When the class is accepted and the base manifests cannot be
    applied, [Setup] fails the run right after the application: the wait
    for the namespaces is never started, the cluster is as the applier left
    it, and the controller's name has been recorded all the same. *)
Theorem Setup_failed_application w name cl1 cl2 :
  let s := the_suite w in
  GWCMustBeAccepted (suite_Client s) (suite_GatewayClassName s) 180
    (the_cluster w) = (Some name, cl1) →
  MustApplyWithCleanup (suite_Applier s) (suite_Client s)
    (suite_BaseManifests s) (suite_GatewayClassName s) (suite_Cleanup s) cl1
  = (None, cl2) →
  Setup w
  = (Goexit FailNow,
     {| the_suite := set_ControllerName name s; the_cluster := cl2 |},
     [ T_Logf "Test Setup: Ensuring GatewayClass has been accepted" [];
       Call_GWCMustBeAccepted (suite_Client s) (suite_GatewayClassName s) 180;
       T_Logf "Test Setup: Applying base manifests" [];
       Base_call s ]).
Proof.
  cbn zeta. intros Ha Hb.
  pose proof (Setup_form w) as H. cbn zeta in H. by rewrite Ha, Hb in H.
Qed.

(** X12.  [Setup] never skips and never applies anything but the base
    manifests: its calls on the applier are at most the one for the suite's
    base manifests with the suite's cleanup flag, made exactly when the
    class was accepted. *)
Theorem Setup_applies_base_only w :
  result (Setup w) ≠ Goexit SkipNow ∧
  skipped (calls (Setup w)) = false ∧
  applications (calls (Setup w))
  = match accepted_in_time w with
    | Some _ => [Base_call (the_suite w)]
    | None => []
    end.
Proof.
  pose proof (Setup_form w) as H. cbn zeta in H. unfold accepted_in_time.
  destruct (GWCMustBeAccepted _ _ _ _) as [[name|] cl1]; [|by rewrite H].
  destruct (MustApplyWithCleanup _ _ _ _ _ cl1) as [[[]|] cl2]; [|by rewrite H].
  destruct (NamespacesMustBeReady _ _ _ cl2) as [[[]|] cl3]; by rewrite H.
Qed.

(** [Setup] leaves the three fields the gates read as they were. *)
Lemma Setup_keeps_gates test w :
  gates_hold test (the_suite (final (Setup w))) ↔ gates_hold test (the_suite w).
Proof.
  destruct (Setup_outcome w) as [(_ & _ & -> & _)|(name & _ & -> & _)]; done.
Qed.

(** X13.  [Setup] does not change which tests are skipped: a test run after
    [Setup], on the store [Setup] left, is skipped exactly when it would
    have been skipped before. *)
Theorem Run_after_Setup_same_gate test w :
  skipped (calls (Run test (final (Setup w))))
  = skipped (calls (Run test w)).
Proof.
  pose proof (Run_skipped_gates test (final (Setup w))) as H1.
  pose proof (Run_skipped_gates test w) as H2.
  rewrite Setup_keeps_gates in H1.
  destruct (skipped (calls (Run test (final (Setup w)))));
    destruct (skipped (calls (Run test w))); try done.
  - by pose proof (proj2 H2 (proj1 H1 eq_refl)).
  - by pose proof (proj2 H1 (proj1 H2 eq_refl)).
Qed.

(** ** The constructor, beyond its defaults *)

(** X14.  The base manifests of a new suite are never the empty path. *)
Theorem New_BaseManifests_not_empty (o : Options) :
  suite_BaseManifests (New o) ≠ "".
Proof.
  unfold New; cbn [suite_BaseManifests].
  destruct (String.eqb_spec (opt_BaseManifests o) "") as [->|Hne]; done.
Qed.

(** Apart from its defaults, [New] hands the options through: client,
    class name, debug flag and feature lists are the options'; the cleanup
    flag is the options' [CleanupBaseResources]; the applier carries the
    options' namespace labels and listener ports; and the controller name
    is empty until [Setup] records it. *)
Lemma New_hands_options_through (o : Options) :
  suite_Client (New o) = opt_Client o ∧
  suite_GatewayClassName (New o) = opt_GatewayClassName o ∧
  suite_ControllerName (New o) = "" ∧
  suite_Debug (New o) = opt_Debug o ∧
  suite_Cleanup (New o) = opt_CleanupBaseResources o ∧
  suite_Applier (New o)
  = {| NamespaceLabels := opt_NamespaceLabels o;
       ValidUniqueListenerPorts := opt_ValidUniqueListenerPorts o |} ∧
  suite_ExemptFeatures (New o) = opt_ExemptFeatures o ∧
  suite_SupportedFeatures (New o) = opt_SupportedFeatures o.
Proof. unfold New. by destruct (String.eqb _ _). Qed.

(** X15.  [Setup] on a new suite, in terms of the options: the class
    awaited is the options' class, the manifests applied are the options'
    base manifests, or ["base/manifests.yaml"] when the options name none,
    with the options' labels and ports and cleaned up exactly when the
    options ask for it. *)
Theorem Setup_after_New (o : Options) cl :
  calls (Setup {| the_suite := New o; the_cluster := cl |})
    `prefix_of`
  [ T_Logf "Test Setup: Ensuring GatewayClass has been accepted" [];
    Call_GWCMustBeAccepted (opt_Client o) (opt_GatewayClassName o) 180;
    T_Logf "Test Setup: Applying base manifests" [];
    Call_MustApplyWithCleanup
      {| NamespaceLabels := opt_NamespaceLabels o;
         ValidUniqueListenerPorts := opt_ValidUniqueListenerPorts o |}
      (opt_Client o)
      (if String.eqb (opt_BaseManifests o) "" then "base/manifests.yaml"
       else opt_BaseManifests o)
      (opt_GatewayClassName o) (opt_CleanupBaseResources o);
    T_Logf "Test Setup: Ensuring Gateways and Pods from base manifests are ready" [];
    Call_NamespacesMustBeReady (opt_Client o)
      [ "gateway-conformance-infra";
        "gateway-conformance-app-backend";
        "gateway-conformance-web-backend" ] 300 ].
Proof.
  set (w := {| the_suite := New o; the_cluster := cl |}).
  match goal with
  | |- _ `prefix_of` ?l => replace l with (Setup_calls (the_suite w))
  end.
  - destruct (Setup_outcome w) as
      [(_ & _ & _ & ->)|(name & _ & _ & [[_ ->]| ->])];
      [apply prefix_take | apply prefix_take | done].
  - unfold Setup_calls, w, New; cbn.
    by destruct (String.eqb (opt_BaseManifests o) "").
Qed.

(** ** The suite's Run *)

Lemma subtest_name test w : sub_name (subtest test w).2 = ShortName test.
Proof.
  unfold subtest. destruct (Parallel test); [done|].
  by destruct (Run test w) as [[r w'] cs].
Qed.

(** A subtest that is not parallel is the test's [Run], whole. *)
Lemma subtest_sequential test w :
  Parallel test = false →
  subtest test w
  = (final (Run test w),
     {| sub_name := ShortName test;
        sub_calls := calls (Run test w);
        sub_end := Ended (result (Run test w)) |}).
Proof.
  unfold subtest. intros ->. by destruct (Run test w) as [[r w'] cs].
Qed.

(** X16.  The suite's [Run] opens one subtest per test, under the test's
    short name and in the order of the list: a test that is skipped or
    that fails does not keep the tests after it from being opened. *)
Theorem ConformanceTestSuite_Run_opens_every_test tests w :
  sub_name <$> (ConformanceTestSuite_Run tests w).2 = ShortName <$> tests.
Proof.
  induction tests as [|test tests IH] in w |- *; [done|].
  cbn [ConformanceTestSuite_Run].
  pose proof (subtest_name test w) as Hn.
  destruct (subtest test w) as [w1 s]. specialize (IH w1).
  destruct (ConformanceTestSuite_Run tests w1) as [w2 ss].
  cbn in *. by rewrite Hn, IH.
Qed.

(** X17.  Over tests that are not parallel and whose bodies leave the
    suite as they found it, the suite's [Run] skips exactly the tests that
    fail the gate of the suite it was started with, whatever the tests
    before them did to the cluster; a skipped subtest has applied no
    manifest; and the suite is unchanged at the end. *)
Theorem ConformanceTestSuite_Run_skips_by_gate tests w :
  Forall (λ test, Parallel test = false) tests →
  Forall keeps_suite tests →
  the_suite (ConformanceTestSuite_Run tests w).1 = the_suite w ∧
  Forall2 (λ test s,
      sub_name s = ShortName test ∧
      (skipped (sub_calls s) = true ↔ ¬ gates_hold test (the_suite w)) ∧
      (¬ gates_hold test (the_suite w) →
       sub_end s = Ended (Goexit SkipNow) ∧ applications (sub_calls s) = []))
    tests (ConformanceTestSuite_Run tests w).2.
Proof.
  intros Hp Hk.
  induction tests as [|test tests IH] in w, Hp, Hk |- *; [by split|].
  apply Forall_cons in Hp as [Hp1 Hp], Hk as [Hk1 Hk].
  cbn [ConformanceTestSuite_Run]. rewrite (subtest_sequential _ _ Hp1).
  assert (the_suite (final (Run test w)) = the_suite w) as Hs.
  { destruct (Run_final_suite test w) as [[_ ?]|(_ & w1 & Hw & ->)]; [done|].
    by rewrite Hk1. }
  specialize (IH (final (Run test w)) Hp Hk).
  destruct (ConformanceTestSuite_Run tests (final (Run test w))) as [w2 ss].
  cbn [fst snd] in *. rewrite Hs in IH. destruct IH as [IH1 IH2].
  split; [done|]. constructor; [|done]. cbn [sub_name sub_calls sub_end].
  split; [done|]. split; [apply Run_skipped_gates|].
  intros Hn. destruct (Run_stopped_form _ _ Hn) as (c & Hc & ->).
  split; [done|]. unfold calls; cbn [snd].
  rewrite applications_Parallel_calls. by destruct c.
Qed.


End Coverage.

(** * The further properties on the sample cluster *)

Section CoverageSamples.
#[local] Existing Instance sample.

(** A test with two manifests under the standard suite: both are applied,
    in order, before the body. *)
Lemma Run_admitted_runs_body_witness :
  gates_hold two_manifest_Test (the_suite standard_Store) ∧
  result (apply_Manifests two_manifest_Test standard_Store) = Return () ∧
  result (Run two_manifest_Test standard_Store) = Return () ∧
  applications (calls (Run two_manifest_Test standard_Store))
  = [ Manifest_call (the_suite standard_Store) "a.yaml";
      Manifest_call (the_suite standard_Store) "b.yaml" ].
Proof.
  assert (gates_hold two_manifest_Test (the_suite standard_Store)) as Hg.
  { apply gates_hold_first_missing. vm_compute. repeat split; discriminate. }
  assert (result (apply_Manifests two_manifest_Test standard_Store) = Return ())
    as Hr by reflexivity.
  split; [exact Hg|]. split; [exact Hr|].
  destruct (Run_admitted_runs_body two_manifest_Test standard_Store Hg Hr)
    as (_ & H1 & _ & _ & H2).
  split; [exact H1 | exact H2].
Defined.

(** A test whose second manifest cannot be applied: the run fails there
    and the third manifest is never touched. *)
Lemma Run_failed_application_ends_run_witness :
  gates_hold failing_second_Test (the_suite standard_Store) ∧
  result (apply_Manifests failing_second_Test standard_Store) ≠ Return () ∧
  result (Run failing_second_Test standard_Store) = Goexit FailNow ∧
  body_executed (calls (Run failing_second_Test standard_Store)) = false.
Proof.
  assert (gates_hold failing_second_Test (the_suite standard_Store)) as Hg.
  { apply gates_hold_first_missing. vm_compute. repeat split; discriminate. }
  assert (result (apply_Manifests failing_second_Test standard_Store) ≠ Return ())
    as Hr by (vm_compute; discriminate).
  split; [exact Hg|]. split; [exact Hr|].
  destruct (Run_failed_application_ends_run failing_second_Test standard_Store Hg Hr)
    as (H1 & H2 & _).
  split; [exact H1 | exact H2].
Defined.

(** A run that returns. *)
Lemma Run_returns_only_through_body_witness :
  result (Run standard_Test standard_Store) = Return () ∧
  body_executed (calls (Run standard_Test standard_Store)) = true.
Proof.
  split; [reflexivity|].
  apply (Run_returns_only_through_body standard_Test standard_Store).
  reflexivity.
Defined.

(** A skipped run leaves the suite as it was. *)
Lemma Run_keeps_suite_witness :
  body_executed (calls (Run needy_Test standard_Store)) = false ∧
  the_suite (final (Run needy_Test standard_Store)) = the_suite standard_Store.
Proof.
  split; [reflexivity|].
  apply (Run_keeps_suite needy_Test standard_Store). left. reflexivity.
Defined.

(** From the standard suite to the experimental one, which admits more. *)
Lemma Run_wider_suite_still_admits_witness :
  suite_MinChannel (the_suite experimental_Store)
    ≤ suite_MinChannel (the_suite standard_Store) ∧
  skipped (calls (Run standard_Test standard_Store)) = false ∧
  skipped (calls (Run standard_Test experimental_Store)) = false.
Proof.
  assert (suite_MinChannel (the_suite experimental_Store)
            ≤ suite_MinChannel (the_suite standard_Store)) as Hc
    by (vm_compute; discriminate).
  split; [exact Hc|]. split; [reflexivity|].
  apply (Run_wider_suite_still_admits standard_Test standard_Store experimental_Store);
    [ apply first_missing_None; reflexivity
    | apply first_missing_None; reflexivity
    | exact Hc
    | reflexivity ].
Defined.

(** The supporting suite lacks the second and the third feature of the
    test: the skip names the second. *)
Lemma Run_names_first_unsupported_witness :
  Run mesh_Test supporting_Store
  = (Goexit SkipNow, supporting_Store, [Skip_unsupported mesh_Test "Mesh"]).
Proof.
  apply (Run_names_first_unsupported mesh_Test supporting_Store
           [SupportReferencePolicy] "Mesh" ["UDPRoute"]).
  - reflexivity.
  - apply first_missing_None. reflexivity.
  - apply slices_Contains_false. reflexivity.
Defined.

(** A [Setup] that returns. *)
Lemma Setup_returns_after_all_calls_witness :
  result (Setup standard_Store) = Return () ∧
  calls (Setup standard_Store) = Setup_calls (the_suite standard_Store) ∧
  applications (calls (Setup standard_Store))
  = [Base_call (the_suite standard_Store)].
Proof.
  split; [reflexivity|].
  destruct (Setup_returns_after_all_calls standard_Store eq_refl) as (H1 & H2 & _).
  split; [exact H1 | exact H2].
Defined.

(** Base manifests that cannot be applied. *)
Lemma Setup_failed_application_witness :
  result (Setup broken_base_Store) = Goexit FailNow ∧
  suite_ControllerName (the_suite (final (Setup broken_base_Store)))
  = "example.net/gateway-controller" ∧
  length (calls (Setup broken_base_Store)) = 4%nat.
Proof.
  rewrite (Setup_failed_application broken_base_Store
             "example.net/gateway-controller" [] [] eq_refl eq_refl).
  repeat split.
Defined.

(** Two tests, one requiring a feature the suite lacks and one requiring
    nothing: one skip, one execution. *)
Lemma ConformanceTestSuite_Run_skips_by_gate_witness :
  Forall (λ test, Parallel test = false) [needy_Test; standard_Test] ∧
  Forall keeps_suite [needy_Test; standard_Test] ∧
  (skipped ∘ sub_calls <$>
     (ConformanceTestSuite_Run [needy_Test; standard_Test] standard_Store).2)
  = [true; false] ∧
  the_suite (ConformanceTestSuite_Run [needy_Test; standard_Test] standard_Store).1
  = the_suite standard_Store.
Proof.
  assert (Forall (λ test, Parallel test = false) [needy_Test; standard_Test])
    as Hp by (repeat constructor).
  assert (Forall keeps_suite [needy_Test; standard_Test])
    as Hk by (repeat constructor).
  split; [exact Hp|]. split; [exact Hk|]. split; [reflexivity|].
  exact (proj1 (ConformanceTestSuite_Run_skips_by_gate
                  [needy_Test; standard_Test] standard_Store Hp Hk)).
Defined.

End CoverageSamples.
